(** * DotBot asset-transfer agent: parsing and transaction preparation

    A shallow embedding of [src/agents/asset-transfer-agent/agent.py]
    (class [AssetTransferAgent]) together with the Python built-ins the
    agent calls, and the properties of the transfer pipeline proved on it.
    The message handlers of the agent, the endpoints of
    [src/backend/main.py] and [log_error] of [src/backend/config/logger.py]
    are embedded after it.

    Conventions of the embedding.
    - A Python [str] is a Rocq [string]; its characters are read as the
      code points 0..255, so every statement ranges over the Python strings
      whose code points are below 256.  [split], [lower], [isdigit] and
      [float] follow CPython on that range.
    - A Python [float] is an IEEE-754 binary64 number, kept as an integer
      mantissa and a binary exponent ([FFinite m e] is [m * 2^e]); the sign
      of a zero is not kept, nothing in the agent observes it.
    - A raised exception is the [Raise] result of the [Res] monad;
      [try]/[except] is [try_except].  Only instances of [Exception] are
      modelled.
    - [await] is a plain call: the agent awaits each coroutine at once.
    - Calls to [self.logger] only write to the logging sink and are left
      out.
    - The two data classes are read as [@dataclass] makes them: the base
      class [Model] of the uagents library is taken to leave the generated
      [__init__] unchanged.
    - The chain client library is outside the repository: whether it is
      installed ([SUBSTRATE_AVAILABLE]), its address decoder and its
      connections are parameters. *)

From Stdlib Require Import ZArith QArith Qround String Ascii List Bool Lia.
Import ListNotations.

#[local] Open Scope string_scope.
#[local] Open Scope Z_scope.

(** ** Exceptions and results *)

Inductive exn_class : Type :=
| TypeError
| ValueError
| OverflowError
| KeyError
| OtherException (name : string).

(** An exception instance: its class and the text [str(e)] gives. *)
Record exn : Type := Exception { exn_type : exn_class; exn_str : string }.

Inductive Res (A : Type) : Type :=
| Ok (a : A)
| Raise (e : exn).

Arguments Ok {A} a.
Arguments Raise {A} e.

Definition bind {A B : Type} (r : Res A) (k : A -> Res B) : Res B :=
  match r with
  | Ok a => k a
  | Raise e => Raise e
  end.

(** [try: body  except Exception as e: handler e] *)
Definition try_except {A : Type} (body : Res A) (handler : exn -> Res A) : Res A :=
  match body with
  | Ok a => Ok a
  | Raise e => handler e
  end.

Declare Scope py_scope.
Delimit Scope py_scope with py.
Notation "x <- c ;; k" := (bind c (fun x => k))
  (at level 61, c at next level, right associativity) : py_scope.
#[local] Open Scope py_scope.

Definition raises {A : Type} (r : Res A) (c : exn_class) : Prop :=
  exists msg, r = Raise (Exception c msg).

Definition returns {A : Type} (r : Res A) : Prop :=
  exists a, r = Ok a.

(** ** Python string built-ins *)

Module PyStr.

Definition ord (c : ascii) : Z := Z.of_N (N_of_ascii c).
Definition chr (z : Z) : ascii := ascii_of_N (Z.to_N z).

Definition len (s : string) : Z := Z.of_nat (String.length s).

(** [str.isspace] on one character: the separators of [str.split()]. *)
Definition isspace_char (c : ascii) : bool :=
  let n := ord c in
  ((9 <=? n) && (n <=? 13)) || ((28 <=? n) && (n <=? 32))
  || (n =? 133) || (n =? 160).

(** [str.isdigit] on one character: 0-9 and the superscripts 1, 2, 3. *)
Definition isdigit_char (c : ascii) : bool :=
  let n := ord c in
  ((48 <=? n) && (n <=? 57)) || (n =? 178) || (n =? 179) || (n =? 185).

Definition lower_char (c : ascii) : ascii :=
  let n := ord c in
  if ((65 <=? n) && (n <=? 90))
     || ((192 <=? n) && (n <=? 222) && negb (n =? 215))
  then chr (n + 32) else c.

Fixpoint lower (s : string) : string :=
  match s with
  | EmptyString => EmptyString
  | String c r => String (lower_char c) (lower r)
  end.

Definition is_empty (s : string) : bool :=
  match s with EmptyString => true | String _ _ => false end.

(** Truth value of a string: [bool(s)]. *)
Definition truthy (s : string) : bool := negb (is_empty s).

(** [s.isdigit()]: at least one character and all of them digits. *)
Fixpoint all_digits (s : string) : bool :=
  match s with
  | EmptyString => true
  | String c r => isdigit_char c && all_digits r
  end.

Definition isdigit (s : string) : bool := negb (is_empty s) && all_digits s.

(** [s.replace(old, new)] for a one-character [old]. *)
Fixpoint replace (old : ascii) (new : string) (s : string) : string :=
  match s with
  | EmptyString => EmptyString
  | String c r =>
      if Ascii.eqb c old then new ++ replace old new r
      else String c (replace old new r)
  end.

(** [s.split()]: the maximal runs of non-space characters, in order.
    [word] is the run being read. *)
Fixpoint split_from (word : string) (s : string) : list string :=
  match s with
  | EmptyString => if is_empty word then [] else [word]
  | String c r =>
      if isspace_char c
      then (if is_empty word then split_from "" r
            else word :: split_from "" r)
      else split_from (word ++ String c "") r
  end.

Definition split (s : string) : list string := split_from "" s.

Definition startswith (s : string) (p : string) : bool := String.prefix p s.

(** [sub in s] *)
Fixpoint contains (sub : string) (s : string) : bool :=
  String.prefix sub s
  || match s with
     | EmptyString => false
     | String _ r => contains sub r
     end.

(** [s[:n]] *)
Fixpoint take (n : nat) (s : string) : string :=
  match n, s with
  | S k, String c r => String c (take k r)
  | _, _ => EmptyString
  end.

Definition hex_digit (n : Z) : ascii :=
  if n <? 10 then chr (48 + n) else chr (87 + n).

Definition isprintable_char (c : ascii) : bool :=
  let n := ord c in
  ((32 <=? n) && (n <=? 126)) || ((161 <=? n) && negb (n =? 173)).

Definition repr_char (quote : ascii) (c : ascii) : string :=
  let n := ord c in
  if Ascii.eqb c quote || (n =? 92) then String "\" (String c "")
  else if n =? 9 then "\t"
  else if n =? 10 then "\n"
  else if n =? 13 then "\r"
  else if isprintable_char c then String c ""
  else String "\" (String "x" (String (hex_digit (n / 16))
                                  (String (hex_digit (n mod 16)) ""))).

Fixpoint repr_body (quote : ascii) (s : string) : string :=
  match s with
  | EmptyString => EmptyString
  | String c r => repr_char quote c ++ repr_body quote r
  end.

(** [repr(s)]: single quotes unless the string has a single quote and no
    double quote. *)
Definition repr (s : string) : string :=
  let quote :=
    if contains "'" s && negb (contains (String (chr 34) "") s)
    then chr 34 else "'"%char in
  String quote (repr_body quote s ++ String quote "").

End PyStr.

(** ** Python floats (IEEE-754 binary64) *)

Module PyFloat.

Import PyStr.

(** [FFinite m e] is the number [m * 2^e]. *)
Inductive pyfloat : Type :=
| FFinite (m e : Z)
| FInf (neg : bool)
| FNan.

(** The integer nearest to [n / d], ties to the even one ([0 <= n], [0 < d]). *)
Definition round_half_even (n d : Z) : Z :=
  let q := n / d in
  match (2 * (n mod d)) ?= d with
  | Lt => q
  | Gt => q + 1
  | Eq => if Z.even q then q else q + 1
  end.

(** [n / d] against [2^k], as a comparison of integers. *)
Definition ratio_ge_pow2 (n d k : Z) : bool :=
  if 0 <=? k then d * 2 ^ k <=? n else d <=? n * 2 ^ (- k).

(** The exponent [floor (log2 (n / d))] for [0 < n], [0 < d]. *)
Definition ratio_log2 (n d : Z) : Z :=
  let k := Z.log2 n - Z.log2 d in
  if ratio_ge_pow2 n d k then k else k - 1.

(** Round-to-nearest-even of the positive rational [n / d] to a 53-bit
    mantissa: exponents below -1074 give subnormals, a result of [2^1024]
    or more overflows ([None]). *)
Definition round_pos (n d : Z) : option (Z * Z) :=
  let e := Z.max (ratio_log2 n d - 52) (-1074) in
  let m := if 0 <=? e then round_half_even n (d * 2 ^ e)
           else round_half_even (n * 2 ^ (- e)) d in
  let '(m, e) := if m =? 2 ^ 53 then (2 ^ 52, e + 1) else (m, e) in
  if 971 <? e then None else Some (m, e).

(** The binary64 number nearest to [n / d] ([0 < d]). *)
Definition of_ratio (n d : Z) : pyfloat :=
  if n =? 0 then FFinite 0 0
  else match round_pos (Z.abs n) d with
       | Some (m, e) => FFinite (Z.sgn n * m) e
       | None => FInf (n <? 0)
       end.


(** [float(n)] for an [int]: the nearest float, or [OverflowError]. *)
Definition of_int (n : Z) : Res pyfloat :=
  match of_ratio n 1 with
  | FInf _ => Raise (Exception OverflowError "int too large to convert to float")
  | f => Ok f
  end.

(** The product of two floats in C. *)
Definition mul (x y : pyfloat) : pyfloat :=
  match x, y with
  | FNan, _ | _, FNan => FNan
  | FInf s, FInf t => FInf (xorb s t)
  | FInf s, FFinite m _ | FFinite m _, FInf s =>
      if m =? 0 then FNan else FInf (xorb s (m <? 0))
  | FFinite m1 e1, FFinite m2 e2 =>
      let m := m1 * m2 in
      let e := e1 + e2 in
      if 0 <=? e then of_ratio (m * 2 ^ e) 1 else of_ratio m (2 ^ (- e))
  end.

(** [x * n] for a float [x] and an [int] [n]: the integer is converted first. *)
Definition mul_int (x : pyfloat) (n : Z) : Res pyfloat :=
  y <- of_int n ;; Ok (mul x y).

(** [a / b] for two [int]s with [0 < b]: the nearest float of the quotient. *)
Definition int_truediv (a b : Z) : Res pyfloat :=
  match of_ratio a b with
  | FInf _ =>
      Raise (Exception OverflowError "integer division result too large for a float")
  | f => Ok f
  end.

(** [int(x)]: truncation toward zero. *)
Definition to_int (x : pyfloat) : Res Z :=
  match x with
  | FFinite m e => Ok (if 0 <=? e then m * 2 ^ e else Z.quot m (2 ^ (- e)))
  | FInf _ => Raise (Exception OverflowError "cannot convert float infinity to integer")
  | FNan => Raise (Exception ValueError "cannot convert float NaN to integer")
  end.

(** *** [float(s)] for a string *)

Definition is_decimal_char (c : ascii) : bool :=
  (48 <=? ord c) && (ord c <=? 57).

(** C's [isspace] in the C locale. *)
Definition c_isspace (c : ascii) : bool :=
  ((9 <=? ord c) && (ord c <=? 13)) || (ord c =? 32).

Definition c_tolower (c : ascii) : ascii :=
  if (65 <=? ord c) && (ord c <=? 90) then chr (ord c + 32) else c.

Fixpoint c_lower (s : string) : string :=
  match s with
  | EmptyString => EmptyString
  | String c r => String (c_tolower c) (c_lower r)
  end.

(** Non-ASCII white space becomes a blank, any other non-ASCII character
    a question mark (the range below 256 has no non-ASCII decimal digit). *)
Definition to_ascii_char (c : ascii) : ascii :=
  if ord c <=? 127 then c
  else if isspace_char c then " "%char else "?"%char.

Fixpoint to_ascii (s : string) : string :=
  match s with
  | EmptyString => EmptyString
  | String c r => String (to_ascii_char c) (to_ascii r)
  end.

(** An underscore is accepted between two digits only, and dropped.
    [prev] is the character before [s], if any. *)
Fixpoint drop_underscores (prev : option ascii) (s : string) : option string :=
  let prev_digit :=
    match prev with Some p => is_decimal_char p | None => false end in
  let prev_underscore :=
    match prev with Some p => Ascii.eqb p "_" | None => false end in
  match s with
  | EmptyString => if prev_underscore then None else Some EmptyString
  | String c r =>
      if Ascii.eqb c "_"
      then (if prev_digit then drop_underscores (Some c) r else None)
      else if prev_underscore && negb (is_decimal_char c) then None
      else match drop_underscores (Some c) r with
           | Some t => Some (String c t)
           | None => None
           end
  end.

Fixpoint lstrip (s : string) : string :=
  match s with
  | String c r => if c_isspace c then lstrip r else s
  | EmptyString => EmptyString
  end.

(** Drops the trailing blanks of [s]. *)
Fixpoint rstrip (s : string) : string :=
  match s with
  | EmptyString => EmptyString
  | String c r =>
      match rstrip r with
      | EmptyString => if c_isspace c then EmptyString else String c EmptyString
      | t => String c t
      end
  end.

(** Reads a run of decimal digits: the number read after [acc], how many
    digits were read after [cnt], and what follows the run. *)
Fixpoint read_digits (acc cnt : Z) (s : string) : Z * Z * string :=
  match s with
  | String c r =>
      if is_decimal_char c
      then read_digits (10 * acc + (ord c - 48)) (cnt + 1) r
      else (acc, cnt, s)
  | EmptyString => (acc, cnt, s)
  end.

Definition read_sign (s : string) : bool * string :=
  match s with
  | String c r =>
      if Ascii.eqb c "-" then (true, r)
      else if Ascii.eqb c "+" then (false, r)
      else (false, s)
  | EmptyString => (false, s)
  end.

(** The float nearest to [(-1)^neg * m * 10^ex]. *)
Definition of_decimal (neg : bool) (m ex : Z) : pyfloat :=
  let m := if neg then - m else m in
  if 0 <=? ex then of_ratio (m * 10 ^ ex) 1 else of_ratio m (10 ^ (- ex)).

(** The number a whole string spells, in C's [strtod] grammar without
    hexadecimal forms: sign, digits with an optional point, optional
    exponent; or [inf], [infinity], [nan] in any case. *)
Definition strtod (s : string) : option pyfloat :=
  let '(neg, s1) := read_sign s in
  let word := c_lower s1 in
  if String.eqb word "inf" || String.eqb word "infinity" then Some (FInf neg)
  else if String.eqb word "nan" then Some FNan
  else
    let '(ip, ni, s2) := read_digits 0 0 s1 in
    let '(m, nf, s3) :=
      match s2 with
      | String c r => if Ascii.eqb c "." then read_digits ip 0 r else (ip, 0, s2)
      | EmptyString => (ip, 0, s2)
      end in
    if ni + nf =? 0 then None
    else match s3 with
         | EmptyString => Some (of_decimal neg m (- nf))
         | String c r =>
             if Ascii.eqb c "e" || Ascii.eqb c "E" then
               let '(eneg, r1) := read_sign r in
               let '(ex, ne, r2) := read_digits 0 0 r1 in
               if (ne =? 0) || negb (is_empty r2) then None
               else Some (of_decimal neg m ((if eneg then - ex else ex) - nf))
             else None
         end.

Definition float_error (s : string) : exn :=
  Exception ValueError ("could not convert string to float: " ++ repr s).

(** [float(s)] *)
Definition float (s : string) : Res pyfloat :=
  match drop_underscores None (to_ascii s) with
  | None => Raise (float_error s)
  | Some t =>
      match strtod (rstrip (lstrip t)) with
      | Some x => Ok x
      | None => Raise (float_error s)
      end
  end.

End PyFloat.

(** ** Python values held in dictionaries *)

#[local] Set Warnings "-register-all".

Inductive pyval : Type :=
| VNone
| VBool (b : bool)
| VInt (z : Z)
| VFloat (f : PyFloat.pyfloat)
| VStr (s : string)
| VList (l : list pyval)
| VDict (d : list (string * pyval)).

(** A [dict] with string keys, in insertion order. *)
Definition dict (V : Type) : Type := list (string * V).

(** [d.get(k)] *)
Fixpoint dict_get {V : Type} (d : dict V) (k : string) : option V :=
  match d with
  | [] => None
  | (k', v) :: r => if String.eqb k' k then Some v else dict_get r k
  end.

(** [k in d] *)
Definition dict_has {V : Type} (d : dict V) (k : string) : bool :=
  match dict_get d k with Some _ => true | None => false end.

(** [d[k] = v]: a key keeps its place, a new key goes last. *)
Fixpoint dict_set {V : Type} (d : dict V) (k : string) (v : V) : dict V :=
  match d with
  | [] => [(k, v)]
  | (k', v') :: r =>
      if String.eqb k' k then (k', v) :: r else (k', v') :: dict_set r k v
  end.


(** Truth value of a Python value: [bool(v)]. *)
Definition truthy (v : pyval) : bool :=
  match v with
  | VNone => false
  | VBool b => b
  | VInt z => negb (z =? 0)
  | VFloat (PyFloat.FFinite m _) => negb (m =? 0)
  | VFloat _ => true
  | VStr s => PyStr.truthy s
  | VList l => match l with [] => false | _ => true end
  | VDict d => match d with [] => false | _ => true end
  end.

(** An [Optional[...]] attribute as a value. *)
Definition opt_val {A : Type} (inj : A -> pyval) (o : option A) : pyval :=
  match o with Some a => inj a | None => VNone end.

(** ** The data classes (agent.py, lines 35-52) *)

(** [TransferRequest]: [amount] and [recipient] have no default. *)
Record TransferRequest : Type := mkTransferRequest {
  amount : string;
  recipient : string;
  asset : string;
  network : string;
  sender_address : pyval;
  message_id : option string
}.

(** [TransferResponse]: [success] and [message] have no default. *)
Record TransferResponse : Type := mkTransferResponse {
  success : bool;
  message : string;
  transaction_data : option (dict pyval);
  error : option string;
  requires_signature : bool
}.

(** The [TypeError] of a call that leaves one or two required arguments
    out (the wording of CPython 3.10 and later). *)
Definition missing_arguments (cls : string) (first : string) (second : option string)
  : exn :=
  Exception TypeError
    (cls ++ ".__init__() missing "
     ++ match second with
        | None => "1 required positional argument: '" ++ first ++ "'"
        | Some b =>
            "2 required positional arguments: '" ++ first ++ "' and '" ++ b ++ "'"
        end).

Definition default {A : Type} (d : A) (o : option A) : A :=
  match o with Some a => a | None => d end.

(** The generated [__init__] of [TransferRequest], called with keyword
    arguments: [None] stands for a keyword the call does not give. *)
Definition TransferRequest_init (amount recipient asset network : option string)
    (sender_address : option pyval) (message_id : option string)
  : Res TransferRequest :=
  match amount, recipient with
  | Some a, Some r =>
      Ok (mkTransferRequest a r (default "DOT" asset) (default "polkadot" network)
            (default VNone sender_address) message_id)
  | None, Some _ => Raise (missing_arguments "TransferRequest" "amount" None)
  | Some _, None => Raise (missing_arguments "TransferRequest" "recipient" None)
  | None, None =>
      Raise (missing_arguments "TransferRequest" "amount" (Some "recipient"))
  end.

(** The generated [__init__] of [TransferResponse]: a call that gives no
    [message] raises [TypeError], the field has no default (line 49). *)
Definition TransferResponse_init (success : option bool) (message : option string)
    (transaction_data : option (dict pyval)) (error : option string)
    (requires_signature : option bool)
  : Res TransferResponse :=
  match success, message with
  | Some s, Some m =>
      Ok (mkTransferResponse s m transaction_data error (default false requires_signature))
  | None, Some _ => Raise (missing_arguments "TransferResponse" "success" None)
  | Some _, None => Raise (missing_arguments "TransferResponse" "message" None)
  | None, None =>
      Raise (missing_arguments "TransferResponse" "success" (Some "message"))
  end.

(** ** The agent (agent.py, lines 54-291) *)

Record NetworkConfig : Type := mkNetworkConfig {
  rpc_url : string;
  ss58_format : Z;
  decimals : Z;
  symbol : string
}.

(** [self.networks]: set once by [__init__] (lines 60-79), never changed. *)
Definition networks : dict NetworkConfig :=
  [ ("polkadot", mkNetworkConfig "wss://rpc.polkadot.io" 0 10 "DOT");
    ("kusama", mkNetworkConfig "wss://kusama-rpc.polkadot.io" 2 12 "KSM");
    ("westend", mkNetworkConfig "wss://westend-rpc.polkadot.io" 42 12 "WND") ].

(** What [result.value['data']] of an account query holds. *)
Record AccountData : Type := mkAccountData {
  free : Z;
  reserved : Z;
  frozen : Z
}.

(** A connection of the chain client.  [query module function params]
    raises, or gives a result that is falsy ([None]) or carries the
    account data. *)
Record SubstrateInterface : Type := mkSubstrateInterface {
  query : string -> string -> list pyval -> Res (option AccountData)
}.

Record AssetTransferAgent : Type := mkAssetTransferAgent {
  agent_id : string;
  substrate_interfaces : dict SubstrateInterface
}.

(** [AssetTransferAgent(agent_id)] *)
Definition AssetTransferAgent_init (agent_id : option string) : AssetTransferAgent :=
  mkAssetTransferAgent (default "asset-transfer-agent" agent_id) [].

(** The alias table of [parse_transfer_request] (lines 125-129). *)
Definition aliases : dict string :=
  [ ("alice", "5GrwvaEF5zXb26Fz9rcQpDWS57CtERHpNehXCPcNoHGKutQY");
    ("bob", "5FHneW46xGXgs5mUiveU4sbTyGBzmstUspZC92UhjJM694ty");
    ("charlie", "5FLSigC9HGRKVhB9FiEo4Y3koPsNmBmLJbpXg2mp1hXcS59Y") ].

Definition network_map : dict string :=
  [ ("DOT", "polkadot"); ("KSM", "kusama"); ("WND", "westend") ].

(** The test of the amount loop (line 111). *)
Definition is_amount_word (word : string) : bool :=
  PyStr.isdigit (PyStr.replace "," "" (PyStr.replace "." "" word)).

(** The amount loop (lines 108-115): the first word that passes, without
    its commas. *)
Definition extract_amount (message : string) : option string :=
  option_map (PyStr.replace "," "") (find is_amount_word (PyStr.split message)).

(** The test of the address loop (line 120). *)
Definition is_address_word (word : string) : bool :=
  (40 <? PyStr.len word) && PyStr.startswith word "5".

(** The address loop (lines 118-122). *)
Definition extract_address (message : string) : option string :=
  find is_address_word (PyStr.split message).

(** The alias loop (lines 131-134): the first alias, in the order of the
    table, that occurs in the lowered message. *)
Definition find_alias (message_lower : string) : option (string * string) :=
  find (fun entry => PyStr.contains (fst entry) message_lower) aliases.

(** The recipient after both loops: an alias replaces the address word. *)
Definition extract_recipient (message : string) : option string :=
  match find_alias (PyStr.lower message) with
  | Some (_, address) => Some address
  | None => extract_address message
  end.

(** Lines 137-141. *)
Definition extract_asset (message_lower : string) : string :=
  if PyStr.contains "ksm" message_lower || PyStr.contains "kusama" message_lower
  then "KSM"
  else if PyStr.contains "wnd" message_lower || PyStr.contains "westend" message_lower
  then "WND"
  else "DOT".

Definition opt_truthy (o : option string) : bool :=
  match o with Some s => PyStr.truthy s | None => false end.

(** [parse_transfer_request] (lines 102-155). *)
Definition parse_transfer_request (message : string) : Res (option TransferRequest) :=
  let message_lower := PyStr.lower message in
  let amount := extract_amount message in
  let recipient := extract_recipient message in
  let asset := extract_asset message_lower in
  let network := default "polkadot" (dict_get network_map asset) in
  if opt_truthy amount && opt_truthy recipient
  then request <- TransferRequest_init amount recipient (Some asset) (Some network)
                    None None ;;
       Ok (Some request)
  else Ok None.

Section Agent.

(** Whether [substrateinterface] could be imported (lines 27-33). *)
Variable SUBSTRATE_AVAILABLE : bool.

(** [ss58_decode(address, valid_ss58_format=...)] of the chain client
    library: the decoded key, or an exception. *)
Variable ss58_decode : string -> Z -> Res string.

(** [SubstrateInterface(url=..., ss58_format=...)]: a connection, or an
    exception. *)
Variable connect : string -> Z -> Res SubstrateInterface.

(** The loop of [initialize] (lines 89-98) over the networks left. *)
Fixpoint connect_all (l : dict NetworkConfig) (acc : dict SubstrateInterface)
  : dict SubstrateInterface :=
  match l with
  | [] => acc
  | (name, config) :: r =>
      match connect (rpc_url config) (ss58_format config) with
      | Ok interface => connect_all r (dict_set acc name interface)
      | Raise _ => connect_all r acc
      end
  end.

(** [initialize] (lines 83-100). *)
Definition initialize (self : AssetTransferAgent) : AssetTransferAgent :=
  if SUBSTRATE_AVAILABLE
  then mkAssetTransferAgent (agent_id self)
         (connect_all networks (substrate_interfaces self))
  else self.

(** [_validate_address] (lines 238-249): any exception of the decoder is
    turned into [False]. *)
Definition _validate_address (address : string) (ss58_format : Z) : bool :=
  if SUBSTRATE_AVAILABLE
  then match ss58_decode address ss58_format with
       | Ok _ => true
       | Raise _ => false
       end
  else (40 <? PyStr.len address) && PyStr.startswith address "5".

(** [self.networks[network]] *)
Definition networks_item (network : string) : Res NetworkConfig :=
  match dict_get networks network with
  | Some c => Ok c
  | None => Raise (Exception KeyError (PyStr.repr network))
  end.

(** [_get_balance] (lines 209-236). *)
Definition _get_balance (self : AssetTransferAgent) (address : pyval)
    (network : string) : Res (option (dict pyval)) :=
  if negb SUBSTRATE_AVAILABLE || negb (dict_has (substrate_interfaces self) network)
  then Ok None
  else
    try_except
      (interface <- match dict_get (substrate_interfaces self) network with
                    | Some i => Ok i
                    | None => Raise (Exception KeyError (PyStr.repr network))
                    end ;;
       result <- query interface "System" "Account" [address] ;;
       match result with
       | Some data =>
           network_config <- networks_item network ;;
           let unit := 10 ^ decimals network_config in
           f <- PyFloat.int_truediv (free data) unit ;;
           r <- PyFloat.int_truediv (reserved data) unit ;;
           z <- PyFloat.int_truediv (frozen data) unit ;;
           t <- PyFloat.int_truediv (free data + reserved data) unit ;;
           Ok (Some [ ("free", VFloat f); ("reserved", VFloat r);
                      ("frozen", VFloat z); ("total", VFloat t);
                      ("symbol", VStr (symbol network_config)) ])
       | None => Ok None
       end)
      (fun _ => Ok None).

(** Lines 168-169: [int(float(request.amount) * (10 ** decimals))]. *)
Definition amount_to_planck (amount : string) (decimals : Z) : Res Z :=
  x <- PyFloat.float amount ;;
  p <- PyFloat.mul_int x (10 ^ decimals) ;;
  PyFloat.to_int p.

(** Lines 179-190. *)
Definition make_transaction_data (request : TransferRequest) (amount_planck : Z)
  : dict pyval :=
  [ ("pallet", VStr "Balances");
    ("call", VStr "transfer");
    ("args", VDict [ ("dest", VDict [ ("Id", VStr (recipient request)) ]);
                     ("value", VInt amount_planck) ]);
    ("network", VStr (network request));
    ("amount_display", VStr (amount request ++ " " ++ asset request));
    ("recipient_display", VStr (recipient request));
    ("estimated_fee", VStr "0.01 DOT") ].

(** The [try] block of [prepare_transfer] (lines 160-200). *)
Definition prepare_transfer_body (self : AssetTransferAgent)
    (request : TransferRequest) : Res TransferResponse :=
  match dict_get networks (network request) with
  | None =>
      TransferResponse_init (Some false) None None
        (Some ("Unsupported network: " ++ network request)) None
  | Some network_config =>
      amount_planck <- amount_to_planck (amount request) (decimals network_config) ;;
      if negb (_validate_address (recipient request) (ss58_format network_config))
      then TransferResponse_init (Some false) None None
             (Some "Invalid recipient address format") None
      else
        let transaction_data := make_transaction_data request amount_planck in
        balance_info <-
          (if truthy (sender_address request)
           then _get_balance self (sender_address request) (network request)
           else Ok None) ;;
        TransferResponse_init (Some true)
          (Some ("Transfer prepared: " ++ amount request ++ " " ++ asset request
                 ++ " to " ++ PyStr.take 8 (recipient request) ++ "..."))
          (Some transaction_data) None (Some true)
  end.

(** [prepare_transfer] (lines 157-207). *)
Definition prepare_transfer (self : AssetTransferAgent) (request : TransferRequest)
  : Res TransferResponse :=
  try_except (prepare_transfer_body self request)
    (fun e =>
       TransferResponse_init (Some false) None None
         (Some ("Failed to prepare transfer: " ++ exn_str e)) None).

(** Lines 258-266. *)
Definition clarification_envelope : dict pyval :=
  [ ("success", VBool false);
    ("message", VStr "I couldn't understand the transfer request. Please specify amount, recipient, and asset type.");
    ("suggestions",
      VList [ VStr "Send 5 DOT to Alice";
              VStr "Transfer 10 DOT to 5GrwvaEF5zXb26Fz9rcQpDWS57CtERHpNehXCPcNoHGKutQY";
              VStr "Send 2.5 KSM to Bob" ]) ].

(** Lines 275-282. *)
Definition response_envelope (self : AssetTransferAgent) (response : TransferResponse)
  : dict pyval :=
  [ ("success", VBool (success response));
    ("message", VStr (message response));
    ("transaction_data", opt_val VDict (transaction_data response));
    ("error", opt_val VStr (error response));
    ("requires_signature", VBool (requires_signature response));
    ("agent_id", VStr (agent_id self)) ].

(** Lines 286-291. *)
Definition error_envelope (self : AssetTransferAgent) (e : exn) : dict pyval :=
  [ ("success", VBool false);
    ("message", VStr "I encountered an error processing your request. Please try again.");
    ("error", VStr (exn_str e));
    ("agent_id", VStr (agent_id self)) ].

(** Lines 269-270: the sender address of a non-empty context. *)
Definition with_sender (context : option (dict pyval)) (request : TransferRequest)
  : TransferRequest :=
  match context with
  | Some ((_ :: _) as c) =>
      match dict_get c "sender_address" with
      | Some v =>
          if truthy v
          then mkTransferRequest (amount request) (recipient request) (asset request)
                 (network request) v (message_id request)
          else request
      | None => request
      end
  | _ => request
  end.

(** [process_message] (lines 251-291). *)
Definition process_message (self : AssetTransferAgent) (message : string)
    (context : option (dict pyval)) : Res (dict pyval) :=
  try_except
    (transfer_request <- parse_transfer_request message ;;
     match transfer_request with
     | None => Ok clarification_envelope
     | Some transfer_request =>
         response <- prepare_transfer self (with_sender context transfer_request) ;;
         Ok (response_envelope self response)
     end)
    (fun e => Ok (error_envelope self e)).

End Agent.

(** ** Reading a response and an envelope *)

(** [d[k1][k2]] for nested dictionaries. *)
Definition dict_get2 (d : dict pyval) (k1 k2 : string) : option pyval :=
  match dict_get d k1 with
  | Some (VDict inner) => dict_get inner k2
  | _ => None
  end.

(** [transaction_data["args"]["value"]] of a response. *)
Definition descriptor_value (response : TransferResponse) : option pyval :=
  match transaction_data response with
  | Some td => dict_get2 td "args" "value"
  | None => None
  end.


(** The [message] of a prepared transfer (line 197). *)
Definition prepared_message (request : TransferRequest) : string :=
  "Transfer prepared: " ++ amount request ++ " " ++ asset request
  ++ " to " ++ PyStr.take 8 (recipient request) ++ "...".

(** The response of lines 195-200. *)
Definition prepared_response (request : TransferRequest) (amount_planck : Z)
  : TransferResponse :=
  mkTransferResponse true (prepared_message request)
    (Some (make_transaction_data request amount_planck)) None true.


Definition alice_address : string :=
  "5GrwvaEF5zXb26Fz9rcQpDWS57CtERHpNehXCPcNoHGKutQY".

(** ** Decimal numerals and the formula of the specification *)

(** A run of decimal digits read as a number, after [acc]. *)
Fixpoint digits_value (acc : Z) (s : string) : option Z :=
  match s with
  | EmptyString => Some acc
  | String c r =>
      if PyFloat.is_decimal_char c
      then digits_value (10 * acc + (PyStr.ord c - 48)) r
      else None
  end.

(** A numeral cut at its first point: what is before, and what is after
    when there is a point. *)
Fixpoint split_point (s : string) : string * option string :=
  match s with
  | EmptyString => (EmptyString, None)
  | String c r =>
      if Ascii.eqb c "." then (EmptyString, Some r)
      else let (a, b) := split_point r in (String c a, b)
  end.

(** The value of a plain decimal numeral (digits, at most one point, at
    least one digit): the pair [(m, k)] stands for [m / 10^k], [k] being
    the number of fractional digits. *)
Definition decimal_value (s : string) : option (Z * Z) :=
  let (ip, fp) := split_point s in
  let fp := default "" fp in
  if PyStr.is_empty ip && PyStr.is_empty fp then None
  else match digits_value 0 (ip ++ fp) with
       | Some m => Some (m, PyStr.len fp)
       | None => None
       end.






(** [base_units / 10^decimals] as a rational. *)
Definition display_amount (base_units decimals : Z) : Q :=
  Qmake base_units (Z.to_pos (10 ^ decimals)).

(** ** Sample environments *)

(** A decoder that rejects every address. *)
Definition rejecting_decoder : string -> Z -> Res string :=
  fun _ _ => Raise (Exception ValueError "Invalid SS58 format").


(** The agent of [main] (line 325), before any connection. *)
Definition default_agent : AssetTransferAgent := AssetTransferAgent_init None.




(** [descriptor_value] of what [prepare_transfer] returned, if it returned. *)
Definition returned_value (r : Res TransferResponse) : option pyval :=
  match r with
  | Ok response => descriptor_value response
  | Raise _ => None
  end.

(** ** Tests on the characters of a string *)







(** ** The message handlers of the agent runtime (agent.py, lines 311-320) *)

(** What a handler hands to [ctx.send]. *)
Inductive reply : Type :=
| ReplyResponse (response : TransferResponse)
| ReplyEnvelope (envelope : dict pyval).

Section Handlers.
Variable SUBSTRATE_AVAILABLE : bool.
Variable ss58_decode : string -> Z -> Res string.
(** [ctx.send(destination, message)] of the agent runtime. *)
Variable send : string -> reply -> Res unit.
(** The module-level [transfer_agent] (line 304). *)
Variable transfer_agent : AssetTransferAgent.


(** [handle_message] (lines 317-320). *)
Definition handle_message (sender : string) (msg : string) : Res unit :=
  result <- process_message SUBSTRATE_AVAILABLE ss58_decode transfer_agent msg None ;;
  send sender (ReplyEnvelope result).
End Handlers.


(** ** Structured logging (backend/models/logging.py, backend/config/logger.py) *)

Module Logging.

(** [ErrorType] (models/logging.py, lines 23-46). *)
Inductive ErrorType : Type :=
| DATABASE_CONNECTION | DATABASE_QUERY
| AGENT_TIMEOUT | AGENT_UNAVAILABLE | INVALID_AGENT_RESPONSE
| PAYMENT_FAILED | PAYMENT_INVALID
| INVALID_REQUEST | AUTHENTICATION_FAILED | RATE_LIMITED
| NETWORK_ERROR | TIMEOUT | CONFIGURATION_ERROR.

(** [error_type.value] *)
Definition ErrorType_value (t : ErrorType) : string :=
  match t with
  | DATABASE_CONNECTION => "databaseConnection"
  | DATABASE_QUERY => "databaseQuery"
  | AGENT_TIMEOUT => "agentTimeout"
  | AGENT_UNAVAILABLE => "agentUnavailable"
  | INVALID_AGENT_RESPONSE => "invalidAgentResponse"
  | PAYMENT_FAILED => "paymentFailed"
  | PAYMENT_INVALID => "paymentInvalid"
  | INVALID_REQUEST => "invalidRequest"
  | AUTHENTICATION_FAILED => "authenticationFailed"
  | RATE_LIMITED => "rateLimited"
  | NETWORK_ERROR => "networkError"
  | TIMEOUT => "timeout"
  | CONFIGURATION_ERROR => "configurationError"
  end.

(** [log_error] (config/logger.py, lines 99-110): the message and the
    keyword arguments it hands to [subsystem_logger.error].  The members
    of [ErrorType] are non-empty strings, hence true. *)
Definition log_error (context : dict pyval) (message : string)
    (error_type : option ErrorType) : string * dict pyval :=
  let log_context := context in
  let log_context :=
    match error_type with
    | Some t => dict_set log_context "type" (VStr (ErrorType_value t))
    | None => log_context
    end in
  (message, log_context).

End Logging.

(** ** The backend endpoints (backend/main.py)

    The service classes of [services/] are parameters: their constructors
    and their methods may return or raise.  A service object is true when
    it is not [None]. *)

Module Backend.

(** What the endpoints use of [services.memory_service.MemoryService]. *)
Record MemoryService : Type := mkMemoryService {
  ms_initialize : Res unit;
  ms_save_conversation : dict pyval -> Res pyval;
  ms_get_conversations : string -> Z -> Res pyval;
  ms_save_preferences : string -> dict pyval -> Res unit;
  ms_get_status : Res pyval
}.

(** What the endpoints use of [services.payment_service.PaymentService]. *)
Record PaymentService : Type := mkPaymentService {
  ps_initialize : Res unit;
  ps_process_payment : dict pyval -> Res pyval;
  ps_get_usage_stats : string -> Res pyval;
  ps_get_status : Res pyval
}.

(** The two module-level globals (backend/main.py, lines 44-45). *)
Record Services : Type := mkServices {
  memory_service : option MemoryService;
  payment_service : option PaymentService
}.

(** What an endpoint hands to the web framework: a returned body, a
    [JSONResponse], a raised [HTTPException], or another exception. *)
Inductive http_result : Type :=
| Returned (body : pyval)
| JSONResponse (status_code : Z) (content : pyval)
| HTTPException (status_code : Z) (detail : string)
| Unhandled (e : exn).

(** One [try] block of [startup_event]: construct, initialize, and fall
    back to [None] on any exception. *)
Definition start_service {S : Type} (construct : Res S) (init : S -> Res unit)
  : option S :=
  match construct with
  | Ok s => match init s with Ok _ => Some s | Raise _ => None end
  | Raise _ => None
  end.

(** [startup_event] (lines 47-74). *)
Definition startup_event (new_memory : Res MemoryService)
    (new_payment : Res PaymentService) : Services :=
  mkServices (start_service new_memory ms_initialize)
             (start_service new_payment ps_initialize).

Definition is_not_None {A : Type} (o : option A) : bool :=
  match o with Some _ => true | None => false end.

Section Endpoints.

Variable services : Services.

(** [datetime.now(timezone.utc).isoformat()] at the time of the call. *)
Variable now : string.

(** [health_check] (lines 76-87). *)
Definition health_check : http_result :=
  Returned (VDict
    [ ("status", VStr "healthy");
      ("timestamp", VStr now);
      ("services", VDict [ ("memory", VBool (is_not_None (memory_service services)));
                           ("payment", VBool (is_not_None (payment_service services))) ]);
      ("message", VStr "DotBot Backend - Optional Enhancement Layer") ]).

Definition not_initialized : pyval :=
  VDict [ ("available", VBool false); ("reason", VStr "Not initialized") ].

(** [service_status] (lines 89-107): the status calls are not guarded. *)
Definition service_status : http_result :=
  match
    (m <- match memory_service services with
          | Some s => ms_get_status s
          | None => Ok not_initialized
          end ;;
     p <- match payment_service services with
          | Some s => ps_get_status s
          | None => Ok not_initialized
          end ;;
     Ok (VDict [ ("backend_available", VBool true);
                 ("services", VDict [ ("memory", m); ("payment", p) ]) ]))
  with
  | Ok status => Returned status
  | Raise e => Unhandled e
  end.

Definition memory_unavailable : http_result :=
  JSONResponse 503
    (VDict [ ("error", VStr "Memory service not available");
             ("fallback", VStr "Use local storage") ]).

Definition payment_unavailable : http_result :=
  JSONResponse 503
    (VDict [ ("error", VStr "Payment service not available");
             ("fallback", VStr "Use free tier") ]).

(** [try: ... return body  except Exception as e: raise
    HTTPException(status_code=500, detail=str(e))] *)
Definition or_500 {A : Type} (call : Res A) (body : A -> pyval) : http_result :=
  match call with
  | Ok a => Returned (body a)
  | Raise e => HTTPException 500 (exn_str e)
  end.

(** [save_conversation] (lines 110-124). *)
Definition save_conversation (conversation_data : dict pyval) : http_result :=
  match memory_service services with
  | None => memory_unavailable
  | Some s =>
      or_500 (ms_save_conversation s conversation_data)
        (fun result => VDict [ ("success", VBool true); ("conversation_id", result) ])
  end.

(** [get_conversations] (lines 126-140). *)
Definition get_conversations (user_id : string) (limit : Z) : http_result :=
  match memory_service services with
  | None => memory_unavailable
  | Some s =>
      or_500 (ms_get_conversations s user_id limit)
        (fun conversations => VDict [ ("conversations", conversations) ])
  end.

(** [save_user_preferences] (lines 142-156). *)
Definition save_user_preferences (user_id : string) (preferences : dict pyval)
  : http_result :=
  match memory_service services with
  | None => memory_unavailable
  | Some s =>
      or_500 (ms_save_preferences s user_id preferences)
        (fun _ => VDict [ ("success", VBool true) ])
  end.

(** [process_payment] (lines 159-173). *)
Definition process_payment (payment_data : dict pyval) : http_result :=
  match payment_service services with
  | None => payment_unavailable
  | Some s => or_500 (ps_process_payment s payment_data) (fun result => result)
  end.

(** [get_usage_stats] (lines 175-186). *)
Definition get_usage_stats (user_id : string) : http_result :=
  match payment_service services with
  | None => Returned (VDict [ ("usage", VStr "unlimited"); ("tier", VStr "free") ])
  | Some s => or_500 (ps_get_usage_stats s user_id) (fun usage => usage)
  end.

(** [proxy_agent_message] (lines 189-220): the enhanced message is built
    and not used. *)
Definition proxy_agent_message (agent_id : string) (message_data : dict pyval)
  : http_result :=
  let enhanced_message :=
    dict_set (dict_set message_data "backend_enhanced" (VBool true))
      "timestamp" (VStr now) in
  Returned (VDict
    [ ("message", VStr ("Backend-enhanced response for agent " ++ agent_id));
      ("original_message", opt_val (fun v => v) (dict_get message_data "message"));
      ("enhanced_features", VDict [ ("caching", VBool true);
                                    ("analytics", VBool true);
                                    ("rate_limiting", VBool true) ]);
      ("note", VStr "Frontend can communicate directly with agents without this proxy") ]).

End Endpoints.

End Backend.


(** ** More sample environments *)

(** An account with 15 DOT free and 0.5 DOT reserved, in planck. *)
Definition sample_account : AccountData :=
  mkAccountData (15 * 10 ^ 10) (5 * 10 ^ 9) 0.

Definition answering_interface : SubstrateInterface :=
  mkSubstrateInterface (fun _ _ _ => Ok (Some sample_account)).

Definition agent_with_connection : AssetTransferAgent :=
  mkAssetTransferAgent "asset-transfer-agent" [("polkadot", answering_interface)].

(** A constructor of connections that reaches polkadot only. *)
Definition connect_polkadot_only (url : string) (format : Z) : Res SubstrateInterface :=
  if String.eqb url "wss://rpc.polkadot.io" then Ok answering_interface
  else Raise (Exception (OtherException "ConnectionRefusedError") "connection refused").

(** A sender of replies that always succeeds. *)
Definition send_ok (destination : string) (message : reply) : Res unit := Ok tt.

Definition service_down : exn :=
  Exception (OtherException "ConnectionError") "database unreachable".

(** A memory service whose [initialize] fails. *)
Definition unstartable_memory : Backend.MemoryService :=
  Backend.mkMemoryService (Raise service_down) (fun _ => Ok VNone)
    (fun _ _ => Ok (VList [])) (fun _ _ => Ok tt) (Ok VNone).

(** A memory service that starts and then fails on every call. *)
Definition failing_memory : Backend.MemoryService :=
  Backend.mkMemoryService (Ok tt) (fun _ => Raise service_down)
    (fun _ _ => Raise service_down) (fun _ _ => Raise service_down)
    (Raise service_down).

(** A payment service that starts and then fails on every call. *)
Definition failing_payment : Backend.PaymentService :=
  Backend.mkPaymentService (Ok tt) (fun _ => Raise service_down)
    (fun _ => Raise service_down) (Raise service_down).

(** ** Properties *)

(** [find] gives nothing exactly when no element passes the test. *)
Lemma find_none_iff {A : Type} (f : A -> bool) (l : list A) :
  find f l = None <-> Forall (fun x => f x = false) l.
Proof.
  induction l as [|x l IH]; simpl.
  - split; [constructor | reflexivity].
  - destruct (f x) eqn:Hx.
    + split; [discriminate | intros H; inversion H; congruence].
    + rewrite IH. split; [intros H; constructor; assumption | intros H; inversion H; assumption].
Qed.


(** A [TransferResponse] built without [message] is a [TypeError]. *)
Lemma TransferResponse_init_without_message success td err sig :
  TransferResponse_init (Some success) None td err sig
  = Raise (missing_arguments "TransferResponse" "message" None).
Proof. reflexivity. Qed.

Lemma missing_arguments_TypeError {A : Type} cls first second :
  raises (@Raise A (missing_arguments cls first second)) TypeError.
Proof. unfold raises, missing_arguments. eexists. reflexivity. Qed.

(** *** Decimal numerals under [float] *)
























Lemma dict_get_cons {V : Type} (k' : string) (v : V) (r : dict V) (k : string) :
  dict_get ((k', v) :: r) k = if String.eqb k' k then Some v else dict_get r k.
Proof. reflexivity. Qed.






Section Properties.

Variable SUBSTRATE_AVAILABLE : bool.
Variable ss58_decode : string -> Z -> Res string.

#[local] Abbreviation validate := (_validate_address SUBSTRATE_AVAILABLE ss58_decode).
#[local] Abbreviation get_balance := (_get_balance SUBSTRATE_AVAILABLE).
#[local] Abbreviation prepare := (prepare_transfer SUBSTRATE_AVAILABLE ss58_decode).
#[local] Abbreviation prepare_body := (prepare_transfer_body SUBSTRATE_AVAILABLE ss58_decode).
#[local] Abbreviation process := (process_message SUBSTRATE_AVAILABLE ss58_decode).

(** [_get_balance] never raises: the guard returns, and the handler turns
    every exception of the [try] block into [None]. *)
Lemma _get_balance_returns self address network :
  returns (get_balance self address network).
Proof.
  unfold _get_balance, returns.
  destruct (negb SUBSTRATE_AVAILABLE || negb (dict_has (substrate_interfaces self) network)).
  - eexists; reflexivity.
  - match goal with |- exists a, try_except ?b _ = _ => destruct b end;
      simpl; eexists; reflexivity.
Qed.


(** Once the network is known, the amount converts and the recipient is
    accepted, the [try] block returns the prepared response, whatever the
    sender address and the balance lookup are. *)
Lemma prepare_transfer_body_success self request config planck :
  dict_get networks (network request) = Some config ->
  amount_to_planck (amount request) (decimals config) = Ok planck ->
  validate (recipient request) (ss58_format config) = true ->
  prepare_body self request = Ok (prepared_response request planck).
Proof.
  intros Hn Ha Hv. unfold prepare_transfer_body.
  rewrite Hn, Ha. simpl. rewrite Hv. simpl.
  destruct (truthy (sender_address request)); [|reflexivity].
  destruct (_get_balance_returns self (sender_address request) (network request)) as [b Hb].
  rewrite Hb. reflexivity.
Qed.

Lemma prepare_transfer_success self request config planck :
  dict_get networks (network request) = Some config ->
  amount_to_planck (amount request) (decimals config) = Ok planck ->
  validate (recipient request) (ss58_format config) = true ->
  prepare self request = Ok (prepared_response request planck).
Proof.
  intros Hn Ha Hv. unfold prepare_transfer.
  rewrite (prepare_transfer_body_success self request config planck Hn Ha Hv).
  reflexivity.
Qed.

(** Whatever the [try] block raises, the handler raises [TypeError]: its
    own [TransferResponse] has no [message] either. *)
Lemma prepare_transfer_handler_raises self request e :
  prepare_body self request = Raise e ->
  raises (prepare self request) TypeError.
Proof.
  intros H. unfold prepare_transfer. rewrite H. simpl.
  apply missing_arguments_TypeError.
Qed.


(** [parse_transfer_request] never raises: it gives a request or [None]. *)
Lemma parse_transfer_request_cases message :
  parse_transfer_request message = Ok None
  \/ exists request, parse_transfer_request message = Ok (Some request).
Proof.
  unfold parse_transfer_request.
  destruct (extract_amount message) as [a|], (extract_recipient message) as [r|];
    simpl; try (left; reflexivity);
    try (destruct (PyStr.truthy a); simpl; left; reflexivity).
  destruct (PyStr.truthy a && PyStr.truthy r); [right; eexists|left]; reflexivity.
Qed.


(** C4 (the code departs from the claim).  For every request whose network
    is not a key of the registry, [prepare_transfer] does not return a
    failure response: building [TransferResponse(success=False, error=...)]
    without the required [message] raises [TypeError], the handler does the
    same, and the [TypeError] leaves [prepare_transfer]. *)
Theorem unsupported_network_raises self request :
  dict_get networks (network request) = None ->
  raises (prepare self request) TypeError
  /\ ~ returns (prepare self request).
Proof.
  intros Hn.
  assert (H : raises (prepare self request) TypeError).
  { apply (prepare_transfer_handler_raises self request
             (missing_arguments "TransferResponse" "message" None)).
    unfold prepare_transfer_body. rewrite Hn. reflexivity. }
  split; [exact H|].
  destruct H as [msg H]. intros [a Ha]. congruence.
Qed.

(** The built-in check of [_validate_address], used when the chain client
    is not installed, rejects exactly the addresses of at most 40
    characters and those that do not start with 5. *)
Lemma builtin_validation_rejects address format :
  SUBSTRATE_AVAILABLE = false ->
  (validate address format = false
   <-> PyStr.len address <= 40 \/ PyStr.startswith address "5" = false).
Proof.
  intros Hs. unfold _validate_address. rewrite Hs.
  rewrite andb_false_iff, Z.ltb_ge. reflexivity.
Qed.

(** C5 (the code departs from the claim).  For every request with a known
    network and an amount that converts, whose recipient fails the address
    validation, [prepare_transfer] raises [TypeError] instead of returning
    a failure response: the response built at line 173 lacks the required
    [message], and so does the one of the handler. *)
Theorem invalid_recipient_raises self request config planck :
  dict_get networks (network request) = Some config ->
  amount_to_planck (amount request) (decimals config) = Ok planck ->
  validate (recipient request) (ss58_format config) = false ->
  raises (prepare self request) TypeError
  /\ ~ returns (prepare self request).
Proof.
  intros Hn Ha Hv.
  assert (H : raises (prepare self request) TypeError).
  { apply (prepare_transfer_handler_raises self request
             (missing_arguments "TransferResponse" "message" None)).
    unfold prepare_transfer_body. rewrite Hn, Ha. simpl. rewrite Hv. reflexivity. }
  split; [exact H|].
  destruct H as [msg H]. intros [a Ha']. congruence.
Qed.



(** The envelope of a message that is parsed into a request. *)
Lemma process_message_of_request self message context request :
  parse_transfer_request message = Ok (Some request) ->
  process self message context
  = match prepare self (with_sender context request) with
    | Ok response => Ok (response_envelope self response)
    | Raise e => Ok (error_envelope self e)
    end.
Proof.
  intros Hp. unfold process_message. rewrite Hp. simpl.
  destruct (prepare self (with_sender context request)); reflexivity.
Qed.


(** C8.  For every message in which no word is numeric, or in which no
    word is an address and no alias occurs, [parse_transfer_request]
    returns [None] without raising, and [process_message] returns the
    clarification envelope: [success] false, the clarification message,
    the three example phrasings, and no [error] key. *)
Theorem unparseable_message_gets_clarification self message context :
  Forall (fun word => is_amount_word word = false) (PyStr.split message)
  \/ (Forall (fun word => is_address_word word = false) (PyStr.split message)
      /\ Forall (fun entry => PyStr.contains (fst entry) (PyStr.lower message) = false)
           aliases) ->
  parse_transfer_request message = Ok None
  /\ exists envelope,
       process self message context = Ok envelope
       /\ dict_get envelope "success" = Some (VBool false)
       /\ dict_get envelope "message"
          = Some (VStr "I couldn't understand the transfer request. Please specify amount, recipient, and asset type.")
       /\ dict_get envelope "suggestions"
          = Some (VList [ VStr "Send 5 DOT to Alice";
                          VStr "Transfer 10 DOT to 5GrwvaEF5zXb26Fz9rcQpDWS57CtERHpNehXCPcNoHGKutQY";
                          VStr "Send 2.5 KSM to Bob" ])
       /\ dict_has envelope "error" = false.
Proof.
  intros H.
  assert (Hp : parse_transfer_request message = Ok None).
  { unfold parse_transfer_request. destruct H as [Ha | [Hw Hal]].
    - unfold extract_amount. apply find_none_iff in Ha. rewrite Ha. reflexivity.
    - unfold extract_recipient, find_alias, extract_address.
      apply find_none_iff in Hw. apply find_none_iff in Hal. rewrite Hal, Hw.
      simpl. rewrite andb_false_r. reflexivity. }
  split; [exact Hp|].
  exists clarification_envelope. unfold process_message. rewrite Hp.
  repeat split.
Qed.



End Properties.


(** C3 (the code departs from the claim).  The amount "0.57" has two
    fractional digits, fewer than the 10 of polkadot, and is converted to
    5699999999 base units: dividing by [10^10] gives 0.5699999999, not
    0.57.  The message "Send 0.57 DOT to Alice" leads to that value. *)
Theorem amount_0_57_loses_one_planck :
  decimal_value "0.57" = Some (57, 2)
  /\ amount_to_planck "0.57" 10 = Ok 5699999999
  /\ returned_value
       (prepare_transfer false rejecting_decoder default_agent
          (mkTransferRequest "0.57" alice_address "DOT" "polkadot" VNone None))
     = Some (VInt 5699999999)
  /\ parse_transfer_request "Send 0.57 DOT to Alice"
     = Ok (Some (mkTransferRequest "0.57" alice_address "DOT" "polkadot" VNone None))
  /\ ~ (display_amount 5699999999 10 == 57 # 100)%Q.
Proof.
  repeat split; try (vm_compute; reflexivity).
  vm_compute. discriminate.
Qed.

(** *** The theorems at concrete inputs *)



Lemma unsupported_network_raises_witness :
  raises
    (prepare_transfer false rejecting_decoder default_agent
       (mkTransferRequest "5" alice_address "DOT" "moonbeam" VNone None))
    TypeError.
Proof.
  apply (unsupported_network_raises false rejecting_decoder default_agent
           (mkTransferRequest "5" alice_address "DOT" "moonbeam" VNone None)
           eq_refl).
Defined.

Lemma invalid_recipient_raises_witness :
  raises
    (prepare_transfer false rejecting_decoder default_agent
       (mkTransferRequest "5" "1abc" "DOT" "polkadot" VNone None))
    TypeError.
Proof.
  apply (invalid_recipient_raises false rejecting_decoder default_agent
           (mkTransferRequest "5" "1abc" "DOT" "polkadot" VNone None)
           (mkNetworkConfig "wss://rpc.polkadot.io" 0 10 "DOT") 50000000000
           eq_refl eq_refl eq_refl).
Defined.


Lemma unparseable_message_gets_clarification_witness :
  parse_transfer_request "hello there" = Ok None
  /\ exists envelope,
       process_message false rejecting_decoder default_agent "hello there" None
       = Ok envelope
       /\ dict_get envelope "success" = Some (VBool false)
       /\ dict_has envelope "error" = false.
Proof.
  destruct (unparseable_message_gets_clarification false rejecting_decoder
              default_agent "hello there" None)
    as [Hp [envelope [He [Hs [_ [_ Herr]]]]]].
  - left. repeat constructor.
  - split; [exact Hp|]. exists envelope. repeat split; assumption.
Defined.



(** *** Where the claims as stated fail *)



(** ** Further properties of the agent *)















(** *** Exact conversions *)










Lemma registry_decimals name config :
  dict_get networks name = Some config ->
  decimals config = 10 \/ decimals config = 12.
Proof.
  unfold networks. rewrite !dict_get_cons.
  destruct (String.eqb "polkadot" name); [intros H; injection H as <-; left; reflexivity|].
  destruct (String.eqb "kusama" name); [intros H; injection H as <-; right; reflexivity|].
  destruct (String.eqb "westend" name); [intros H; injection H as <-; right; reflexivity|].
  discriminate.
Qed.

(** *** Signs *)
















(** *** Balances *)

Lemma ratio_log2_le n d :
  0 < n -> 0 < d -> PyFloat.ratio_log2 n d <= Z.log2 n.
Proof.
  intros Hn Hd. unfold PyFloat.ratio_log2.
  pose proof (Z.log2_nonneg d).
  destruct (PyFloat.ratio_ge_pow2 n d (Z.log2 n - Z.log2 d)); lia.
Qed.

(** A quotient of integers whose numerator is below [2^1023] in absolute
    value does not overflow. *)
Lemma of_ratio_finite a b :
  Z.abs a < 2 ^ 1023 -> 0 < b -> exists m e, PyFloat.of_ratio a b = PyFloat.FFinite m e.
Proof.
  intros Ha Hb. unfold PyFloat.of_ratio.
  destruct (Z.eqb_spec a 0) as [E|E]; [eauto|].
  assert (Hn : 0 < Z.abs a) by lia.
  unfold PyFloat.round_pos.
  pose proof (ratio_log2_le (Z.abs a) b Hn Hb) as Hl.
  assert (Hlog : Z.log2 (Z.abs a) < 1023) by (apply Z.log2_lt_pow2; lia).
  set (e := Z.max (PyFloat.ratio_log2 (Z.abs a) b - 52) (-1074)).
  assert (He : e <= 970) by (unfold e; lia).
  destruct (_ =? 2 ^ 53); cbv beta iota.
  - destruct (Z.ltb_spec 971 (e + 1)); [lia|eauto].
  - destruct (Z.ltb_spec 971 e); [lia|eauto].
Qed.

Lemma int_truediv_finite a b :
  Z.abs a < 2 ^ 1023 -> 0 < b ->
  PyFloat.int_truediv a b = Ok (PyFloat.of_ratio a b).
Proof.
  intros Ha Hb. unfold PyFloat.int_truediv.
  destruct (of_ratio_finite a b Ha Hb) as [m [e ->]]. reflexivity.
Qed.

(** *** Dictionaries *)

(** Lookup after an assignment. *)
Lemma dict_get_set {V : Type} (d : dict V) (k : string) (v : V) (k' : string) :
  dict_get (dict_set d k v) k' = if String.eqb k k' then Some v else dict_get d k'.
Proof.
  induction d as [|[k0 v0] d IH]; simpl.
  - reflexivity.
  - destruct (String.eqb_spec k0 k) as [E|E]; simpl.
    + subst k0. destruct (String.eqb k k'); reflexivity.
    + rewrite IH. destruct (String.eqb_spec k0 k') as [E1|E1]; [|reflexivity].
      subst k'. destruct (String.eqb_spec k k0) as [E2|_]; [congruence|reflexivity].
Qed.

Lemma dict_get_set_other {V : Type} (d : dict V) (k : string) (v : V) (k' : string) :
  k' <> k -> dict_get (dict_set d k v) k' = dict_get d k'.
Proof.
  intros Hne. rewrite dict_get_set.
  destruct (String.eqb_spec k k'); [congruence|reflexivity].
Qed.

Section MoreProperties.

Variable SUBSTRATE_AVAILABLE : bool.
Variable ss58_decode : string -> Z -> Res string.

#[local] Abbreviation validate := (_validate_address SUBSTRATE_AVAILABLE ss58_decode).
#[local] Abbreviation get_balance := (_get_balance SUBSTRATE_AVAILABLE).
#[local] Abbreviation prepare := (prepare_transfer SUBSTRATE_AVAILABLE ss58_decode).
#[local] Abbreviation process := (process_message SUBSTRATE_AVAILABLE ss58_decode).

(** Each way the [try] block fails ends in the same [TypeError]. *)
Lemma prepare_transfer_failure self request :
  dict_get networks (network request) = None
  \/ (exists config e,
        dict_get networks (network request) = Some config
        /\ amount_to_planck (amount request) (decimals config) = Raise e)
  \/ (exists config planck,
        dict_get networks (network request) = Some config
        /\ amount_to_planck (amount request) (decimals config) = Ok planck
        /\ validate (recipient request) (ss58_format config) = false) ->
  prepare self request = Raise (missing_arguments "TransferResponse" "message" None).
Proof.
  unfold prepare_transfer, prepare_transfer_body.
  intros [Hn | [[config [e [Hn Ha]]] | [config [planck [Hn [Ha Hv]]]]]]; rewrite Hn.
  - reflexivity.
  - rewrite Ha. reflexivity.
  - rewrite Ha. simpl. rewrite Hv. reflexivity.
Qed.

(** The two outcomes of [prepare_transfer], with the exception it raises. *)
Lemma prepare_transfer_outcomes self request :
  (exists config planck,
      dict_get networks (network request) = Some config
      /\ amount_to_planck (amount request) (decimals config) = Ok planck
      /\ validate (recipient request) (ss58_format config) = true
      /\ prepare self request = Ok (prepared_response request planck))
  \/ prepare self request = Raise (missing_arguments "TransferResponse" "message" None).
Proof.
  destruct (dict_get networks (network request)) as [config|] eqn:Hn.
  - destruct (amount_to_planck (amount request) (decimals config)) as [planck|e] eqn:Ha.
    + destruct (validate (recipient request) (ss58_format config)) eqn:Hv.
      * left. exists config, planck. repeat split; try assumption.
        eapply prepare_transfer_success; eassumption.
      * right. apply prepare_transfer_failure. right. right. eauto.
    + right. apply prepare_transfer_failure. right. left. eauto.
  - right. apply prepare_transfer_failure. left. exact Hn.
Qed.

Lemma prepared_response_fields r r' planck :
  amount r' = amount r -> recipient r' = recipient r ->
  asset r' = asset r -> network r' = network r ->
  prepared_response r' planck = prepared_response r planck.
Proof.
  intros Ha Hr Hs Hn.
  unfold prepared_response, prepared_message, make_transaction_data.
  rewrite Ha, Hr, Hs, Hn. reflexivity.
Qed.

(** [prepare_transfer] reads the amount, the recipient, the asset and the
    network of a request, and nothing else. *)
Lemma prepare_transfer_fields self r r' :
  amount r' = amount r -> recipient r' = recipient r ->
  asset r' = asset r -> network r' = network r ->
  prepare self r' = prepare self r.
Proof.
  intros Ha Hr Hs Hn.
  destruct (prepare_transfer_outcomes self r)
    as [[config [planck [H1 [H2 [H3 H4]]]]] | H].
  - rewrite H4. rewrite <- (prepared_response_fields r r' planck Ha Hr Hs Hn).
    apply (prepare_transfer_success _ _ self r' config planck);
      rewrite ?Hn, ?Ha, ?Hr; assumption.
  - rewrite H.
    destruct (prepare_transfer_outcomes self r')
      as [[config [planck [H1 [H2 [H3 H4]]]]] | H']; [|exact H'].
    rewrite Hn in H1. rewrite Ha in H2. rewrite Hr in H3.
    rewrite (prepare_transfer_success _ _ self r config planck H1 H2 H3) in H.
    discriminate.
Qed.

Lemma with_sender_fields context r :
  amount (with_sender context r) = amount r
  /\ recipient (with_sender context r) = recipient r
  /\ asset (with_sender context r) = asset r
  /\ network (with_sender context r) = network r.
Proof.
  unfold with_sender. destruct context as [[|entry c]|];
    [repeat split | | repeat split].
  destruct (dict_get (entry :: c) "sender_address") as [v|]; [|repeat split].
  destruct (truthy v); repeat split.
Qed.

Lemma process_message_without_context self message context :
  process self message context = process self message None.
Proof.
  destruct (parse_transfer_request_cases message) as [Hp | [request Hp]].
  - unfold process_message. rewrite Hp. reflexivity.
  - rewrite (process_message_of_request _ _ self message context request Hp).
    rewrite (process_message_of_request _ _ self message None request Hp).
    destruct (with_sender_fields context request) as [H1 [H2 [H3 H4]]].
    rewrite (prepare_transfer_fields self request (with_sender context request) H1 H2 H3 H4).
    reflexivity.
Qed.


(** X5.  The context never changes what [process_message] returns: the
    sender address it may carry only feeds the balance lookup, whose result
    is dropped and whose failures are swallowed. *)
Theorem context_never_changes_envelope self message context context' :
  process_message SUBSTRATE_AVAILABLE ss58_decode self message context
  = process_message SUBSTRATE_AVAILABLE ss58_decode self message context'.
Proof.
  rewrite (process_message_without_context self message context).
  rewrite (process_message_without_context self message context').
  reflexivity.
Qed.


(** X9.  [_get_balance] never raises.  It returns [None], or, when the
    chain client is installed, the network has a connection and is in the
    registry, the query gave account data and the four divisions did not
    overflow, a dictionary with exactly [free], [reserved], [frozen],
    [total] and [symbol]. *)
Theorem get_balance_swallows_failures self address network :
  _get_balance SUBSTRATE_AVAILABLE self address network = Ok None
  \/ exists config data f r z t,
       SUBSTRATE_AVAILABLE = true
       /\ dict_get networks network = Some config
       /\ (exists interface,
             dict_get (substrate_interfaces self) network = Some interface
             /\ query interface "System" "Account" [address] = Ok (Some data))
       /\ PyFloat.int_truediv (free data) (10 ^ decimals config) = Ok f
       /\ PyFloat.int_truediv (reserved data) (10 ^ decimals config) = Ok r
       /\ PyFloat.int_truediv (frozen data) (10 ^ decimals config) = Ok z
       /\ PyFloat.int_truediv (free data + reserved data) (10 ^ decimals config) = Ok t
       /\ _get_balance SUBSTRATE_AVAILABLE self address network
          = Ok (Some [ ("free", VFloat f); ("reserved", VFloat r);
                       ("frozen", VFloat z); ("total", VFloat t);
                       ("symbol", VStr (symbol config)) ]).
Proof.
  unfold _get_balance, dict_has, networks_item.
  destruct SUBSTRATE_AVAILABLE; cbn [bind try_except negb orb]; [|left; reflexivity].
  destruct (dict_get (substrate_interfaces self) network) as [interface|] eqn:Hi;
    cbn [bind try_except negb orb]; [|left; reflexivity].
  destruct (query interface "System" "Account" [address]) as [[data|]|e] eqn:Hq;
    cbn [bind try_except negb orb]; try (left; reflexivity).
  destruct (dict_get networks network) as [config|] eqn:Hn; cbn [bind try_except negb orb]; [|left; reflexivity].
  destruct (PyFloat.int_truediv (free data) (10 ^ decimals config)) as [f|] eqn:Hf;
    cbn [bind try_except negb orb]; [|left; reflexivity].
  destruct (PyFloat.int_truediv (reserved data) (10 ^ decimals config)) as [r|] eqn:Hr;
    cbn [bind try_except negb orb]; [|left; reflexivity].
  destruct (PyFloat.int_truediv (frozen data) (10 ^ decimals config)) as [z|] eqn:Hz;
    cbn [bind try_except negb orb]; [|left; reflexivity].
  destruct (PyFloat.int_truediv (free data + reserved data) (10 ^ decimals config))
    as [t|] eqn:Ht; cbn [bind try_except negb orb]; [|left; reflexivity].
  right. exists config, data, f, r, z, t. repeat split; try assumption.
  exists interface. split; [reflexivity | exact Hq].
Qed.


End MoreProperties.



(** X10.  With the chain client installed, a connection for the network,
    a network of the registry and account data whose three balances are
    below [2^128], [_get_balance] returns each balance divided by
    [10^decimals], rounded to the nearest float, [total] being free plus
    reserved (frozen is not counted), and the display symbol. *)
Theorem get_balance_reports_display_units self address network interface data config :
  dict_get (substrate_interfaces self) network = Some interface ->
  query interface "System" "Account" [address] = Ok (Some data) ->
  dict_get networks network = Some config ->
  0 <= free data < 2 ^ 128 ->
  0 <= reserved data < 2 ^ 128 ->
  0 <= frozen data < 2 ^ 128 ->
  _get_balance true self address network
  = Ok (Some
      [ ("free", VFloat (PyFloat.of_ratio (free data) (10 ^ decimals config)));
        ("reserved", VFloat (PyFloat.of_ratio (reserved data) (10 ^ decimals config)));
        ("frozen", VFloat (PyFloat.of_ratio (frozen data) (10 ^ decimals config)));
        ("total",
          VFloat (PyFloat.of_ratio (free data + reserved data) (10 ^ decimals config)));
        ("symbol", VStr (symbol config)) ]).
Proof.
  intros Hi Hq Hn Hf Hr Hz.
  assert (Hu : 0 < 10 ^ decimals config).
  { destruct (registry_decimals _ _ Hn) as [-> | ->]; reflexivity. }
  assert (H128 : 2 ^ 128 + 2 ^ 128 < 2 ^ 1023) by reflexivity.
  unfold _get_balance, dict_has, networks_item. rewrite Hi.
  cbn [negb orb try_except bind]. rewrite Hq. cbn [bind]. rewrite Hn. cbn [bind].
  rewrite !int_truediv_finite by (try exact Hu; rewrite Z.abs_eq; lia).
  reflexivity.
Qed.

(** X11.  [initialize] leaves the agent as it is when the chain client is
    not installed.  When it is installed, an agent without connections gets
    a connection for exactly the networks of the registry whose constructor
    did not raise: a network that fails does not stop the others. *)
Theorem initialize_connects_what_answers connect self name :
  substrate_interfaces self = [] ->
  initialize false connect self = self
  /\ agent_id (initialize true connect self) = agent_id self
  /\ dict_get (substrate_interfaces (initialize true connect self)) name
     = match dict_get networks name with
       | Some config =>
           match connect (rpc_url config) (ss58_format config) with
           | Ok interface => Some interface
           | Raise _ => None
           end
       | None => None
       end.
Proof.
  intros Hs. split; [reflexivity|]. split; [reflexivity|].
  unfold initialize, networks. rewrite Hs, !dict_get_cons.
  cbn [connect_all rpc_url ss58_format substrate_interfaces dict_get].
  destruct (String.eqb_spec "polkadot" name) as [E|E];
    [|destruct (String.eqb_spec "kusama" name) as [E1|E1];
      [|destruct (String.eqb_spec "westend" name) as [E2|E2]]];
    try subst name; cbn [rpc_url ss58_format];
    destruct (connect "wss://rpc.polkadot.io" 0) as [ip|];
    destruct (connect "wss://kusama-rpc.polkadot.io" 2) as [ik|];
    destruct (connect "wss://westend-rpc.polkadot.io" 42) as [iw|];
    rewrite ?dict_get_set; cbn [dict_get];
    repeat match goal with
      | |- context [String.eqb ?a ?b] =>
          destruct (String.eqb_spec a b); try congruence; try discriminate
      end;
    reflexivity.
Qed.


(** X13.  [handle_message] always reaches [ctx.send]: it hands the sender
    the envelope of [process_message], which has a [success] flag. *)
Theorem handle_message_always_replies SUBSTRATE_AVAILABLE ss58_decode send
    transfer_agent sender msg :
  exists envelope,
    process_message SUBSTRATE_AVAILABLE ss58_decode transfer_agent msg None = Ok envelope
    /\ (exists b, dict_get envelope "success" = Some (VBool b))
    /\ handle_message SUBSTRATE_AVAILABLE ss58_decode send transfer_agent sender msg
       = send sender (ReplyEnvelope envelope).
Proof.
  unfold handle_message.
  destruct (parse_transfer_request_cases msg) as [Hp | [request Hp]].
  - exists clarification_envelope. unfold process_message. rewrite Hp.
    repeat split. eexists. reflexivity.
  - rewrite (process_message_of_request _ _ transfer_agent msg None request Hp).
    destruct (prepare_transfer SUBSTRATE_AVAILABLE ss58_decode transfer_agent
                (with_sender None request)); eexists; repeat split; eexists; reflexivity.
Qed.

(** ** Properties of the backend *)

Import Backend.

(** A service is kept exactly when it was constructed and initialized. *)
Lemma start_service_spec {S : Type} (construct : Res S) (init : S -> Res unit) s :
  start_service construct init = Some s
  <-> construct = Ok s /\ exists u, init s = Ok u.
Proof.
  unfold start_service. split.
  - destruct construct as [s'|e]; [|discriminate].
    destruct (init s') as [u|e] eqn:Hi; [|discriminate].
    intros H. injection H as <-. split; [reflexivity | eauto].
  - intros [-> [u Hu]]. rewrite Hu. reflexivity.
Qed.

(** X14.  After [startup_event] each service is present exactly when its
    constructor and its [initialize] both succeeded, whatever happened to
    the other service; [health_check] then reports "healthy" in every case,
    with one flag per service that tells whether it is present. *)
Theorem startup_isolates_service_failures new_memory new_payment now :
  let services := startup_event new_memory new_payment in
  (forall m, memory_service services = Some m
             <-> new_memory = Ok m /\ exists u, ms_initialize m = Ok u)
  /\ (forall p, payment_service services = Some p
                <-> new_payment = Ok p /\ exists u, ps_initialize p = Ok u)
  /\ exists body,
       health_check services now = Returned (VDict body)
       /\ dict_get body "status" = Some (VStr "healthy")
       /\ dict_get2 body "services" "memory"
          = Some (VBool (is_not_None (start_service new_memory ms_initialize)))
       /\ dict_get2 body "services" "payment"
          = Some (VBool (is_not_None (start_service new_payment ps_initialize))).
Proof.
  simpl. split; [|split].
  - intros m. apply start_service_spec.
  - intros p. apply start_service_spec.
  - eexists. repeat split.
Qed.

(** X15.  When the memory service cannot be initialized at startup, the
    three memory endpoints answer 503 with the local-storage fallback for
    every input, without calling the service. *)
Theorem failed_memory_startup_gives_503 new_memory new_payment :
  (forall m, new_memory = Ok m -> exists e, ms_initialize m = Raise e) ->
  let services := startup_event new_memory new_payment in
  memory_service services = None
  /\ (forall conversation_data,
        save_conversation services conversation_data = memory_unavailable)
  /\ (forall user_id limit,
        get_conversations services user_id limit = memory_unavailable)
  /\ (forall user_id preferences,
        save_user_preferences services user_id preferences = memory_unavailable).
Proof.
  intros Hfail.
  assert (Hm : start_service new_memory ms_initialize = None).
  { unfold start_service. destruct new_memory as [m|e]; [|reflexivity].
    destruct (Hfail m eq_refl) as [e He]. rewrite He. reflexivity. }
  simpl. unfold save_conversation, get_conversations, save_user_preferences. simpl.
  rewrite Hm. repeat split.
Qed.

(** X16.  When the payment service cannot be initialized at startup,
    [process_payment] answers 503 with the free-tier fallback, while
    [get_usage_stats] returns the unlimited free tier as a normal body. *)
Theorem failed_payment_startup_degrades new_memory new_payment :
  (forall p, new_payment = Ok p -> exists e, ps_initialize p = Raise e) ->
  let services := startup_event new_memory new_payment in
  (forall payment_data, process_payment services payment_data = payment_unavailable)
  /\ (forall user_id,
        get_usage_stats services user_id
        = Returned (VDict [ ("usage", VStr "unlimited"); ("tier", VStr "free") ])).
Proof.
  intros Hfail.
  assert (Hp : start_service new_payment ps_initialize = None).
  { unfold start_service. destruct new_payment as [p|e]; [|reflexivity].
    destruct (Hfail p eq_refl) as [e He]. rewrite He. reflexivity. }
  simpl. unfold process_payment, get_usage_stats. simpl. rewrite Hp. split; reflexivity.
Qed.

(** X17.  With both services present, an exception of the service call
    behind [save_conversation], [get_conversations],
    [save_user_preferences], [process_payment] or [get_usage_stats]
    becomes an [HTTPException] with status 500 whose detail is the text of
    the exception. *)
Theorem service_exception_becomes_500 services m p e :
  memory_service services = Some m ->
  payment_service services = Some p ->
  (forall conversation_data,
      ms_save_conversation m conversation_data = Raise e ->
      save_conversation services conversation_data = HTTPException 500 (exn_str e))
  /\ (forall user_id limit,
        ms_get_conversations m user_id limit = Raise e ->
        get_conversations services user_id limit = HTTPException 500 (exn_str e))
  /\ (forall user_id preferences,
        ms_save_preferences m user_id preferences = Raise e ->
        save_user_preferences services user_id preferences
        = HTTPException 500 (exn_str e))
  /\ (forall payment_data,
        ps_process_payment p payment_data = Raise e ->
        process_payment services payment_data = HTTPException 500 (exn_str e))
  /\ (forall user_id,
        ps_get_usage_stats p user_id = Raise e ->
        get_usage_stats services user_id = HTTPException 500 (exn_str e)).
Proof.
  intros Hm Hp.
  unfold save_conversation, get_conversations, save_user_preferences,
    process_payment, get_usage_stats, or_500.
  rewrite Hm, Hp. repeat split; intros; match goal with H : _ = Raise _ |- _ => rewrite H end;
    reflexivity.
Qed.

(** X18.  [service_status] reports "Not initialized" for both services
    when none is present, and does not guard the status calls: an exception
    of [get_status] of the memory service, or of the payment service once
    the memory status was obtained, leaves the endpoint as it is. *)
Theorem service_status_is_unguarded services :
  (memory_service services = None -> payment_service services = None ->
   service_status services
   = Returned (VDict [ ("backend_available", VBool true);
                       ("services", VDict [ ("memory", not_initialized);
                                            ("payment", not_initialized) ]) ]))
  /\ (forall m e,
        memory_service services = Some m -> ms_get_status m = Raise e ->
        service_status services = Unhandled e)
  /\ (forall p e,
        payment_service services = Some p -> ps_get_status p = Raise e ->
        (forall m, memory_service services = Some m -> exists v, ms_get_status m = Ok v) ->
        service_status services = Unhandled e).
Proof.
  unfold service_status. repeat split.
  - intros -> ->. reflexivity.
  - intros m e -> ->. reflexivity.
  - intros p e Hp He Hm. rewrite Hp, He.
    destruct (memory_service services) as [m|]; [|reflexivity].
    destruct (Hm m eq_refl) as [v ->]. reflexivity.
Qed.

(** X19.  The body of [proxy_agent_message] depends on the agent id and
    on the entry [message] of the data only ([None] when absent): the
    time and the other entries play no role, and neither [backend_enhanced]
    nor [timestamp] is returned. *)
Theorem proxy_echoes_message_only now now' agent_id message_data message_data' :
  dict_get message_data "message" = dict_get message_data' "message" ->
  proxy_agent_message now agent_id message_data
  = proxy_agent_message now' agent_id message_data'
  /\ exists body,
       proxy_agent_message now agent_id message_data = Returned (VDict body)
       /\ dict_get body "original_message"
          = Some (match dict_get message_data "message" with
                  | Some v => v
                  | None => VNone
                  end)
       /\ dict_has body "backend_enhanced" = false
       /\ dict_has body "timestamp" = false.
Proof.
  intros H. unfold proxy_agent_message. rewrite H. split; [reflexivity|].
  eexists. repeat split.
Qed.

Import Logging.

Lemma ErrorType_value_injective t1 t2 :
  ErrorType_value t1 = ErrorType_value t2 -> t1 = t2.
Proof. destruct t1, t2; simpl; intros H; try reflexivity; discriminate H. Qed.


(** X20.  [log_error] passes the message on and logs the caller's
    context with [type] set to the value of the error type, which replaces
    a [type] the caller gave; without an error type the context is logged
    as given.  Every other key keeps its value, and two error types give
    the same [type] only when they are the same. *)
Theorem log_error_adds_type context message error_type :
  fst (log_error context message error_type) = message
  /\ (forall key, key <> "type" ->
        dict_get (snd (log_error context message error_type)) key
        = dict_get context key)
  /\ dict_get (snd (log_error context message error_type)) "type"
     = match error_type with
       | Some t => Some (VStr (ErrorType_value t))
       | None => dict_get context "type"
       end
  /\ (forall t1 t2,
        dict_get (snd (log_error context message (Some t1))) "type"
        = dict_get (snd (log_error context message (Some t2))) "type" ->
        t1 = t2).
Proof.
  unfold log_error. simpl. repeat split.
  - intros key Hk. destruct error_type; [apply dict_get_set_other; exact Hk | reflexivity].
  - destruct error_type; [rewrite dict_get_set; reflexivity | reflexivity].
  - intros t1 t2. rewrite !dict_get_set. simpl. intros H. injection H as H.
    apply ErrorType_value_injective. exact H.
Qed.

(** *** The further properties at concrete inputs *)

Ltac closed_bounds :=
  split; [ let H := fresh in intro H; vm_compute in H; discriminate H
         | vm_compute; reflexivity ].








Lemma get_balance_reports_display_units_witness :
  exists balance,
    _get_balance true agent_with_connection (VStr alice_address) "polkadot"
    = Ok (Some balance)
    /\ dict_get balance "total"
       = Some (VFloat (PyFloat.of_ratio (155 * 10 ^ 9) (10 ^ 10)))
    /\ dict_get balance "symbol" = Some (VStr "DOT").
Proof.
  eexists. split.
  - apply (get_balance_reports_display_units agent_with_connection (VStr alice_address)
             "polkadot" answering_interface sample_account
             (mkNetworkConfig "wss://rpc.polkadot.io" 0 10 "DOT"));
      try reflexivity; closed_bounds.
  - split; reflexivity.
Defined.

Lemma initialize_connects_what_answers_witness :
  dict_get (substrate_interfaces (initialize true connect_polkadot_only default_agent))
    "polkadot" = Some answering_interface
  /\ dict_get (substrate_interfaces (initialize true connect_polkadot_only default_agent))
       "kusama" = None.
Proof.
  split.
  - destruct (initialize_connects_what_answers connect_polkadot_only default_agent
                "polkadot" eq_refl) as [_ [_ H]]. exact H.
  - destruct (initialize_connects_what_answers connect_polkadot_only default_agent
                "kusama" eq_refl) as [_ [_ H]]. exact H.
Defined.

Lemma failed_memory_startup_gives_503_witness :
  Backend.save_conversation
    (Backend.startup_event (Ok unstartable_memory) (Raise service_down)) []
  = Backend.memory_unavailable.
Proof.
  destruct (failed_memory_startup_gives_503 (Ok unstartable_memory) (Raise service_down))
    as [_ [H _]].
  - intros m Hm. injection Hm as <-. eexists. reflexivity.
  - apply H.
Defined.

Lemma failed_payment_startup_degrades_witness :
  Backend.get_usage_stats
    (Backend.startup_event (Ok failing_memory) (Raise service_down)) "user-1"
  = Backend.Returned (VDict [ ("usage", VStr "unlimited"); ("tier", VStr "free") ]).
Proof.
  destruct (failed_payment_startup_degrades (Ok failing_memory) (Raise service_down))
    as [_ H].
  - intros p Hp. discriminate Hp.
  - apply H.
Defined.

Lemma service_exception_becomes_500_witness :
  Backend.process_payment
    (Backend.mkServices (Some failing_memory) (Some failing_payment)) []
  = Backend.HTTPException 500 "database unreachable".
Proof.
  destruct (service_exception_becomes_500
              (Backend.mkServices (Some failing_memory) (Some failing_payment))
              failing_memory failing_payment service_down eq_refl eq_refl)
    as [_ [_ [_ [H _]]]].
  apply H. reflexivity.
Defined.

Lemma proxy_echoes_message_only_witness :
  Backend.proxy_agent_message "2026-11-03T10:00:00+00:00" "asset-transfer-agent"
    [ ("message", VStr "Send 5 DOT to Alice"); ("user", VStr "user-1") ]
  = Backend.proxy_agent_message "2026-11-03T11:00:00+00:00" "asset-transfer-agent"
      [ ("message", VStr "Send 5 DOT to Alice") ].
Proof.
  destruct (proxy_echoes_message_only "2026-11-03T10:00:00+00:00"
              "2026-11-03T11:00:00+00:00" "asset-transfer-agent"
              [ ("message", VStr "Send 5 DOT to Alice"); ("user", VStr "user-1") ]
              [ ("message", VStr "Send 5 DOT to Alice") ] eq_refl) as [H _].
  exact H.
Defined.
